(** * Data_: the request relay (backend.py) and the event logger
      (function_app.py)

    A shallow embedding of the two handlers of the repository.  Both are
    written against third-party services (Flask, boto3, the [json] and
    [logging] modules, azure.functions); those are the environment of the
    handlers and appear here as explicit parameters, while the handlers
    themselves are translated statement by statement. *)

From Stdlib Require Import ZArith List String Ascii Bool Lia.
From Stdlib Require Import Floats.SpecFloat Numbers.DecimalString.
Import ListNotations.
Open Scope string_scope.
Set Warnings "-register-all".

(** ** Python values and exceptions *)

Module Py.

(** The objects a JSON decoder produces: [None], [bool], [int], [float],
    [str], [list] and [dict] with string keys.  A [dict] keeps its
    insertion order, so it is an association list. *)
Inductive value : Type :=
| VNone
| VBool (b : bool)
| VInt (z : Z)
| VFloat (f : spec_float)
| VStr (s : string)
| VList (xs : list value)
| VDict (kvs : list (string * value)).

(** [type(v).__name__] *)
Definition type_name (v : value) : string :=
  match v with
  | VNone => "NoneType"
  | VBool _ => "bool"
  | VInt _ => "int"
  | VFloat _ => "float"
  | VStr _ => "str"
  | VList _ => "list"
  | VDict _ => "dict"
  end.

(** [bool(v)]: the truth value tested by [if] and [not]. *)
Definition truthy (v : value) : bool :=
  match v with
  | VNone => false
  | VBool b => b
  | VInt z => negb (z =? 0)%Z
  | VFloat (S754_zero _) => false
  | VFloat _ => true
  | VStr s => negb (s =? EmptyString)
  | VList [] => false
  | VList (_ :: _) => true
  | VDict [] => false
  | VDict (_ :: _) => true
  end.

Definition is_str (v : value) : bool :=
  match v with VStr _ => true | _ => false end.

Definition is_dict (v : value) : bool :=
  match v with VDict _ => true | _ => false end.

(** An instance of [Exception]: its class and the text [str(e)].  The
    interpreter's own signals ([KeyboardInterrupt], [SystemExit]), which
    are not instances of [Exception], are outside the model. *)
Record exception : Type := Raise { exc_class : string; exc_str : string }.

Definition str (e : exception) : string := exc_str e.

(** The outcome of evaluating an expression: it raises or yields. *)
Definition result (A : Type) : Type := (exception + A)%type.

Definition AttributeError (v : value) (attr : string) : exception :=
  Raise "AttributeError"
        ("'" ++ type_name v ++ "' object has no attribute '" ++ attr ++ "'").

(** [str(KeyError(k))] is the repr of the key. *)
Definition KeyError (k : string) : exception :=
  Raise "KeyError" ("'" ++ k ++ "'").

(** [d[k]] and [d.get(k, default)] on the entries of a [dict]. *)
Fixpoint lookup {A : Type} (k : string) (kvs : list (string * A)) : option A :=
  match kvs with
  | [] => None
  | (k', v) :: rest => if k' =? k then Some v else lookup k rest
  end.

(** [obj.get(k, default)]: only a [dict] has the method. *)
Definition get (obj : value) (k : string) (default : value) : result value :=
  match obj with
  | VDict kvs =>
      match lookup k kvs with
      | Some v => inr v
      | None => inr default
      end
  | _ => inl (AttributeError obj "get")
  end.

(** The [json] module, as far as the handlers use it. [dumps] is total
    on decoded values; [loads] raises on text that is not JSON. *)
Record json_module : Type := {
  dumps : value -> string;
  loads : string -> result value
}.

End Py.
Import Py.

(** ** Effects: a log of external calls, and exceptions *)

Module Eff.
Section WithLog.
(** [L] is what the handler leaves behind in the outside world. *)
Context {L : Type}.

Definition M (A : Type) : Type := L -> result A * L.

Definition ret {A} (a : A) : M A := fun s => (inr a, s).

Definition bind {A B} (c : M A) (k : A -> M B) : M B :=
  fun s =>
    match c s with
    | (inr a, s') => k a s'
    | (inl e, s') => (inl e, s')
    end.

(** evaluation of an expression without effect on the log *)
Definition eval {A} (r : result A) : M A := fun s => (r, s).

(** [try: body except Exception as e: handler e] *)
Definition try_except {A} (body : M A) (handler : exception -> M A) : M A :=
  fun s =>
    match body s with
    | (inr a, s') => (inr a, s')
    | (inl e, s') => handler e s'
    end.

(** one call to the outside: it is recorded, then it answers *)
Definition emit {A} (l : L -> L) (r : result A) : M A :=
  fun s => (r, l s).
End WithLog.

Arguments M : clear implicits.
End Eff.
Import Eff.

Declare Scope eff_scope.
Delimit Scope eff_scope with eff.
Notation "x <- c ;; k" := (bind c (fun x => k))
  (at level 61, c at next level, right associativity) : eff_scope.
Notation "c ;; k" := (bind c (fun _ => k))
  (at level 61, right associativity) : eff_scope.

(** ** src/backend.py *)

Module Backend.

(** *** Flask *)

(** The request, as the handler sees it: the outcome of
    [request.get_json()], which raises on a body that is not JSON. *)
Record Request : Type := { get_json : result value }.

Record Response : Type := { json : value; status : Z; mimetype : string }.

Definition jsonify (v : value) : Response :=
  {| json := v; status := 200; mimetype := "application/json" |}.

(** What a view returns: a response, or a pair of a response and a
    status. *)
Inductive view_rv : Type :=
| Rv (r : Response)
| RvStatus (r : Response) (code : Z).

Definition make_response (rv : view_rv) : Response :=
  match rv with
  | Rv r => r
  | RvStatus r code => {| json := json r; status := code; mimetype := mimetype r |}
  end.

(** *** boto3 *)

(** the keyword arguments of [invoke] *)
Record invoke_args : Type := {
  FunctionName : string;
  InvocationType : string;
  Payload : string
}.

(** the body of an answer, read once: [read()] yields the text or raises *)
Record StreamingBody : Type := { on_read : result string }.

Inductive field : Type :=
| FInt (z : Z)
| FStr (s : string)
| FBody (b : StreamingBody).

(** the answer of [invoke] is a [dict] *)
Definition invoke_response : Type := list (string * field).

(** The client: what the service answers to a call, or the exception the
    call raises. *)
Record client : Type := { on_invoke : invoke_args -> result invoke_response }.

Definition field_type_name (f : field) : string :=
  match f with
  | FInt _ => "int"
  | FStr _ => "str"
  | FBody _ => "StreamingBody"
  end.

(** [response[k]] *)
Definition getitem (response : invoke_response) (k : string) : result field :=
  match lookup k response with
  | Some f => inr f
  | None => inl (KeyError k)
  end.

(** [f.read()] *)
Definition read (f : field) : result string :=
  match f with
  | FBody b => on_read b
  | _ => inl (Raise "AttributeError"
                ("'" ++ field_type_name f ++ "' object has no attribute 'read'"))
  end.

(** The log of a request: the calls made to the compute service. *)
Definition calls : Type := list invoke_args.

Definition invoke (c : client) (args : invoke_args) : M calls invoke_response :=
  emit (fun made => (made ++ [args])%list) (on_invoke c args).

Section Agent.
(** [import json] and [lambda_client = boto3.client("lambda")] *)
Variable json_ : json_module.
Variable lambda_client : client.

Local Open Scope eff_scope.

(** [def agent()], lines 12-26 *)
Definition agent (request : Request) : M calls view_rv :=
  data <- eval (get_json request) ;;
  message <- eval (get data "message" (VStr "")) ;;
  if negb (truthy message) then
    ret (RvStatus (jsonify (VDict [("error", VStr "No message provided")])) 400)
  else
    try_except
      (response <- invoke lambda_client
                     {| FunctionName := "agent_lambda";
                        InvocationType := "RequestResponse";
                        Payload := dumps json_ (VDict [("message", message)]) |} ;;
       payload <- eval (getitem response "Payload") ;;
       text <- eval (read payload) ;;
       result <- eval (loads json_ text) ;;
       ret (Rv (jsonify result)))
      (fun e => ret (RvStatus (jsonify (VDict [("error", VStr (str e))])) 500)).

(** One request: the response of the handler, or the exception that
    leaves it, and the calls it made. *)
Definition handle (request : Request) : result Response * calls :=
  match agent request [] with
  | (inr rv, made) => (inr (make_response rv), made)
  | (inl e, made) => (inl e, made)
  end.

(** the one call a valid message leads to *)
Definition the_call (message : value) : invoke_args :=
  {| FunctionName := "agent_lambda";
     InvocationType := "RequestResponse";
     Payload := dumps json_ (VDict [("message", message)]) |}.

(** decoding of an answer: [json.loads(response["Payload"].read())] *)
Definition decode (response : invoke_response) : result value :=
  match getitem response "Payload" with
  | inl e => inl e
  | inr payload =>
      match read payload with
      | inl e => inl e
      | inr text => loads json_ text
      end
  end.

(** what comes back for a message: the decoded answer, or the
    exception of the call or of the decoding *)
Definition relay (message : value) : result value :=
  match on_invoke lambda_client (the_call message) with
  | inl e => inl e
  | inr response => decode response
  end.

(** The failures of the [try] block, by the step that raises: the call
    itself (the network, the service, the function), the lookup of the
    payload, its reading, its decoding. *)
Inductive fails (message : value) (e : exception) : Prop :=
| fails_invoke :
    on_invoke lambda_client (the_call message) = inl e ->
    fails message e
| fails_getitem response :
    on_invoke lambda_client (the_call message) = inr response ->
    getitem response "Payload" = inl e ->
    fails message e
| fails_read response payload :
    on_invoke lambda_client (the_call message) = inr response ->
    getitem response "Payload" = inr payload ->
    read payload = inl e ->
    fails message e
| fails_loads response payload text :
    on_invoke lambda_client (the_call message) = inr response ->
    getitem response "Payload" = inr payload ->
    read payload = inr text ->
    loads json_ text = inl e ->
    fails message e.

(** the caller receives a JSON object *)
Definition answers_json_object (request : Request) : Prop :=
  exists r, fst (handle request) = inr r /\ is_dict (json r) = true.

End Agent.

(** [data.get('message', '')] on the entries of the body *)
Definition message_of (kvs : list (string * value)) : value :=
  match lookup "message" kvs with
  | Some v => v
  | None => VStr EmptyString
  end.

(** the two error responses *)
Definition bad_request : Response :=
  {| json := VDict [("error", VStr "No message provided")];
     status := 400;
     mimetype := "application/json" |}.

Definition server_error (e : exception) : Response :=
  {| json := VDict [("error", VStr (str e))];
     status := 500;
     mimetype := "application/json" |}.

End Backend.

(** ** src/function_app.py *)

Module FunctionApp.

(** *** azure.functions and logging *)

(** The event, as the handler reads it: the outcome of
    [event.get_json()], and the two attributes, each a [str] or [None]. *)
Record EventGridEvent : Type := {
  get_json : result value;
  subject : option string;
  event_type : option string
}.

Record LogRecord : Type := { levelname : string; msg : string }.

(** The log of an invocation: the records written to the sink. *)
Definition log : Type := list LogRecord.

Definition logging_info (text : string) : M log unit :=
  emit (fun written => (written ++ [{| levelname := "INFO"; msg := text |}])%list)
       (inr tt).

(** a replacement field of an f-string, on a [str] or [None] *)
Definition fmt (x : option string) : string :=
  match x with
  | Some s => s
  | None => "None"
  end.

Section Main.
(** [import json] *)
Variable json_ : json_module.

Local Open Scope eff_scope.

(** [def main(event)], lines 9-13 *)
Definition main (event : EventGridEvent) : M log unit :=
  data <- eval (get_json event) ;;
  logging_info ("Event received: " ++ dumps json_ data) ;;
  logging_info ("Subject: " ++ fmt (subject event)) ;;
  logging_info ("Event Type: " ++ fmt (event_type event)).

(** One delivery, from an empty log. *)
Definition deliver (event : EventGridEvent) : result unit * log :=
  main event [].
End Main.

End FunctionApp.

(** ** flask_cors *)

Module Cors.

(** Modelled from the spec: the extension behind [CORS(app)] (flask_cors,
    imported on line 2 of backend.py and applied on line 7) is not part
    of the sources.  The spec gives its contract: a cross-origin request
    receives headers permitting it when its origin is allowed, and the
    policy of this application is unrestricted.  An extension is
    configured with the origins it allows and the paths it covers;
    [CORS(app)], called with the application alone, restricts neither. *)
Inductive origins : Type :=
| AnyOrigin
| Only (allowed : list string).

(** Modelled from the spec: the configuration of the extension, which the
    spec calls the cross-origin policy. *)
Record options : Type := {
  opt_origins : origins;
  opt_resources : option (list string)   (* [None]: every route *)
}.

(** [CORS(app)]: no keyword argument *)
Definition CORS_app : options :=
  {| opt_origins := AnyOrigin; opt_resources := None |}.

Definition mem (s : string) (l : list string) : bool :=
  existsb (String.eqb s) l.

(** Modelled from the spec: "permitted from any origin" under an
    unrestricted policy; under a restricted one, the listed origins. *)
Definition origin_allowed (o : options) (origin : string) : bool :=
  match opt_origins o with
  | AnyOrigin => true
  | Only allowed => mem origin allowed
  end.

(** Modelled from the spec: the routes the extension applies to. *)
Definition covers (o : options) (path : string) : bool :=
  match opt_resources o with
  | None => true
  | Some paths => mem path paths
  end.

Definition headers : Type := list (string * string).

(** Modelled from the spec: "cross-origin requests (any [Origin] header)
    receive CORS headers permitting the request".  These are the headers
    added to the response to a request that carries an [Origin] header. *)
Definition cors_headers (o : options) (path origin : string) : headers :=
  if covers o path && origin_allowed o origin
  then [("Access-Control-Allow-Origin", origin)]
  else [].

(** Modelled from the spec: what "permitting the request" means.  A browser
    lets the caller at [origin] read the response when the header names
    that origin, or every origin. *)
Definition permits (origin : string) (hs : headers) : bool :=
  match lookup "Access-Control-Allow-Origin" hs with
  | Some allowed => (allowed =? origin) || (allowed =? "*")
  | None => false
  end.

End Cors.

(** ** A json module to run the handlers with

    The theorems below hold for every [json_module].  To evaluate the
    handlers on concrete requests, here is one: the encoder writes what
    [json.dumps] writes with its default separators, a float in full
    decimal expansion; the decoder reads JSON without fractions, exponents
    and [\u] escapes, and its error text is abridged.  Characters are code
    points below 256. *)

Module RefJson.
Local Open Scope list_scope.

Definition chars (s : string) : list ascii := list_ascii_of_string s.
Definition text (cs : list ascii) : string := string_of_list_ascii cs.

Definition code (c : ascii) : N := N_of_ascii c.
Definition chr (n : N) : ascii := ascii_of_N n.

(** the double quote *)
Definition dq : ascii := chr 34.
Definition backslash : ascii := chr 92.

(** *** Encoder *)

Definition hex_digit (n : N) : ascii :=
  chr (if (n <? 10)%N then 48 + n else 87 + n).

Definition escape (c : ascii) : list ascii :=
  let n := code c in
  if (n =? 34)%N then [backslash; dq]
  else if (n =? 92)%N then [backslash; backslash]
  else if (n =? 10)%N then chars "\n"
  else if (n =? 13)%N then chars "\r"
  else if (n =? 9)%N then chars "\t"
  else if (n =? 8)%N then chars "\b"
  else if (n =? 12)%N then chars "\f"
  else if ((n <? 32) || (126 <? n))%N
       then chars "\u00" ++ [hex_digit (n / 16); hex_digit (n mod 16)]
  else [c].

Definition quote (s : string) : list ascii :=
  dq :: flat_map escape (chars s) ++ [dq].

Definition decimal (z : Z) : list ascii :=
  chars (NilZero.string_of_int (Z.to_int z)).

(** [m * 2^e], written out *)
Definition encode_finite (m : positive) (e : Z) : list ascii :=
  if (0 <=? e)%Z then decimal (Z.pos m * 2 ^ e) ++ chars ".0"
  else
    let k := (- e)%Z in
    let n := (Z.pos m * 5 ^ k)%Z in
    decimal (n / 10 ^ k) ++ chars "."
      ++ tl (decimal (10 ^ k + n mod 10 ^ k)).

Definition encode_float (f : spec_float) : list ascii :=
  match f with
  | S754_nan => chars "NaN"
  | S754_infinity false => chars "Infinity"
  | S754_infinity true => chars "-Infinity"
  | S754_zero false => chars "0.0"
  | S754_zero true => chars "-0.0"
  | S754_finite false m e => encode_finite m e
  | S754_finite true m e => chars "-" ++ encode_finite m e
  end.

Fixpoint encode (v : value) : list ascii :=
  match v with
  | VNone => chars "null"
  | VBool true => chars "true"
  | VBool false => chars "false"
  | VInt z => decimal z
  | VFloat f => encode_float f
  | VStr s => quote s
  | VList xs =>
      chars "["
        ++ (fix items (first : bool) (xs : list value) : list ascii :=
              match xs with
              | [] => []
              | x :: rest =>
                  (if first then [] else chars ", ")
                    ++ encode x ++ items false rest
              end) true xs
        ++ chars "]"
  | VDict kvs =>
      chars "{"
        ++ (fix members (first : bool) (kvs : list (string * value)) : list ascii :=
              match kvs with
              | [] => []
              | (k, x) :: rest =>
                  (if first then [] else chars ", ")
                    ++ quote k ++ chars ": " ++ encode x ++ members false rest
              end) true kvs
        ++ chars "}"
  end.

(** *** Decoder *)

Definition is_ws (c : ascii) : bool :=
  let n := code c in
  ((n =? 32) || (n =? 9) || (n =? 10) || (n =? 13))%N.

Definition is_digit (c : ascii) : bool :=
  let n := code c in ((48 <=? n) && (n <=? 57))%N.

Fixpoint skip_ws (cs : list ascii) : list ascii :=
  match cs with
  | c :: rest => if is_ws c then skip_ws rest else cs
  | [] => []
  end.

(** [cs] without the prefix [p], when it starts with it *)
Fixpoint strip (p cs : list ascii) : option (list ascii) :=
  match p, cs with
  | [], _ => Some cs
  | a :: p', c :: cs' => if Ascii.eqb a c then strip p' cs' else None
  | _ :: _, [] => None
  end.

Definition unescape (c : ascii) : option ascii :=
  let n := code c in
  if ((n =? 34) || (n =? 92) || (n =? 47))%N then Some c
  else if (n =? 110)%N then Some (chr 10)
  else if (n =? 114)%N then Some (chr 13)
  else if (n =? 116)%N then Some (chr 9)
  else if (n =? 98)%N then Some (chr 8)
  else if (n =? 102)%N then Some (chr 12)
  else None.

(** the rest of a string literal, after its opening quote *)
Fixpoint scan_string (cs acc : list ascii) : option (string * list ascii) :=
  match cs with
  | [] => None
  | c :: rest =>
      if Ascii.eqb c dq then Some (text (rev acc), rest)
      else if Ascii.eqb c backslash then
        match rest with
        | e :: rest' =>
            match unescape e with
            | Some x => scan_string rest' (x :: acc)
            | None => None
            end
        | [] => None
        end
      else if (code c <? 32)%N then None
      else scan_string rest (c :: acc)
  end.

Fixpoint scan_digits (cs : list ascii) (acc : Z) : Z * list ascii :=
  match cs with
  | c :: rest =>
      if is_digit c
      then scan_digits rest (10 * acc + Z.of_N (code c - 48))%Z
      else (acc, cs)
  | [] => (acc, [])
  end.

Definition starts_with (p : ascii -> bool) (cs : list ascii) : bool :=
  match cs with
  | c :: _ => p c
  | [] => false
  end.

(** an unsigned integer literal *)
Definition scan_nat (cs : list ascii) : option (Z * list ascii) :=
  match cs with
  | c :: rest =>
      if negb (is_digit c) then None
      else if (code c =? 48)%N && starts_with is_digit rest then None
      else
        let (z, rest') := scan_digits cs 0 in
        if starts_with (fun d => let n := code d in
                                 ((n =? 46) || (n =? 101) || (n =? 69))%N) rest'
        then None
        else Some (z, rest')
  | [] => None
  end.

(** [d[k] = v] on the entries of a [dict] *)
Fixpoint set_item (k : string) (v : value) (kvs : list (string * value))
  : list (string * value) :=
  match kvs with
  | [] => [(k, v)]
  | (k', v') :: rest =>
      if (k' =? k)%string then (k, v) :: rest else (k', v') :: set_item k v rest
  end.

Fixpoint scan_value (fuel : nat) (cs : list ascii) : option (value * list ascii) :=
  match fuel with
  | O => None
  | S fuel' =>
      match skip_ws cs with
      | [] => None
      | c :: rest =>
          if Ascii.eqb c dq then
            match scan_string rest [] with
            | Some (s, rest') => Some (VStr s, rest')
            | None => None
            end
          else if Ascii.eqb c "["%char then
            match strip (chars "]") (skip_ws rest) with
            | Some rest' => Some (VList [], rest')
            | None =>
                match scan_items fuel' rest [] with
                | Some (xs, rest') => Some (VList xs, rest')
                | None => None
                end
            end
          else if Ascii.eqb c "{"%char then
            match strip (chars "}") (skip_ws rest) with
            | Some rest' => Some (VDict [], rest')
            | None =>
                match scan_members fuel' rest [] with
                | Some (kvs, rest') => Some (VDict kvs, rest')
                | None => None
                end
            end
          else if Ascii.eqb c "-"%char then
            match scan_nat rest with
            | Some (z, rest') => Some (VInt (- z), rest')
            | None => None
            end
          else if is_digit c then
            match scan_nat (c :: rest) with
            | Some (z, rest') => Some (VInt z, rest')
            | None => None
            end
          else
            match strip (chars "null") (c :: rest) with
            | Some rest' => Some (VNone, rest')
            | None =>
                match strip (chars "true") (c :: rest) with
                | Some rest' => Some (VBool true, rest')
                | None =>
                    match strip (chars "false") (c :: rest) with
                    | Some rest' => Some (VBool false, rest')
                    | None => None
                    end
                end
            end
      end
  end

with scan_items (fuel : nat) (cs : list ascii) (acc : list value)
  : option (list value * list ascii) :=
  match fuel with
  | O => None
  | S fuel' =>
      match scan_value fuel' cs with
      | Some (x, rest) =>
          match skip_ws rest with
          | c :: rest' =>
              if Ascii.eqb c ","%char then scan_items fuel' rest' (acc ++ [x])
              else if Ascii.eqb c "]"%char then Some (acc ++ [x], rest')
              else None
          | [] => None
          end
      | None => None
      end
  end

with scan_members (fuel : nat) (cs : list ascii) (acc : list (string * value))
  : option (list (string * value) * list ascii) :=
  match fuel with
  | O => None
  | S fuel' =>
      match strip [dq] (skip_ws cs) with
      | Some after_quote =>
          match scan_string after_quote [] with
          | Some (k, after_key) =>
              match strip (chars ":") (skip_ws after_key) with
              | Some after_colon =>
                  match scan_value fuel' after_colon with
                  | Some (x, rest) =>
                      match skip_ws rest with
                      | c :: rest' =>
                          if Ascii.eqb c ","%char
                          then scan_members fuel' rest' (set_item k x acc)
                          else if Ascii.eqb c "}"%char
                          then Some (set_item k x acc, rest')
                          else None
                      | [] => None
                      end
                  | None => None
                  end
              | None => None
              end
          | None => None
          end
      | None => None
      end
  end.

Definition JSONDecodeError : exception :=
  Raise "JSONDecodeError" "Expecting value".

Definition decode (s : string) : result value :=
  match scan_value (2 * String.length s + 2) (chars s) with
  | Some (v, rest) =>
      match skip_ws rest with
      | [] => inr v
      | _ :: _ => inl JSONDecodeError
      end
  | None => inl JSONDecodeError
  end.

Definition json_ : json_module :=
  {| dumps := fun v => text (encode v); loads := decode |}.

(** a string literal holds no double quote: [q "a"] is ["a"] in quotes *)
Definition q (s : string) : string := String dq (s ++ String dq EmptyString).

End RefJson.

(** ** Concrete requests, services and events *)

Module Examples.
Import RefJson.

(** a POST whose body decodes to [v] *)
Definition post (v : value) : Backend.Request := {| Backend.get_json := inr v |}.

(** a POST whose body is not JSON: werkzeug's [BadRequest] *)
Definition BadRequest : exception :=
  Raise "BadRequest"
        "400 Bad Request: The browser (or proxy) sent a request that this server could not understand.".

Definition post_garbage : Backend.Request := {| Backend.get_json := inl BadRequest |}.

(** a compute service whose function answers [text] *)
Definition answering (text : string) : Backend.client :=
  {| Backend.on_invoke := fun _ =>
       inr [("StatusCode", Backend.FInt 200);
            ("ExecutedVersion", Backend.FStr "$LATEST");
            ("Payload", Backend.FBody {| Backend.on_read := inr text |})] |}.

(** a compute service that cannot be reached *)
Definition EndpointConnectionError : exception :=
  Raise "EndpointConnectionError" "Could not connect to the endpoint URL".

Definition unreachable : Backend.client :=
  {| Backend.on_invoke := fun _ => inl EndpointConnectionError |}.

(** the texts [{"reply": "hello"}] and [{"message": "hi"}] *)
Definition reply_hello : string := "{" ++ q "reply" ++ ": " ++ q "hello" ++ "}".
Definition message_hi : string := "{" ++ q "message" ++ ": " ++ q "hi" ++ "}".

Definition blob_created : FunctionApp.EventGridEvent :=
  {| FunctionApp.get_json := inr (VDict [("url", VStr "https://x/y.txt")]);
     FunctionApp.subject := Some "/blobServices/default/containers/c/blobs/y.txt";
     FunctionApp.event_type := Some "Microsoft.Storage.BlobCreated" |}.

Definition broken_event : FunctionApp.EventGridEvent :=
  {| FunctionApp.get_json := inl (Raise "ValueError" "bad payload");
     FunctionApp.subject := Some "s";
     FunctionApp.event_type := Some "t" |}.

(** a compute service whose function raised: the service answers all the
    same, and says so in the field [FunctionError] *)
Definition function_error (text : string) : Backend.client :=
  {| Backend.on_invoke := fun _ =>
       inr [("StatusCode", Backend.FInt 200);
            ("FunctionError", Backend.FStr "Unhandled");
            ("Payload", Backend.FBody {| Backend.on_read := inr text |})] |}.

(** an answer without its payload *)
Definition no_payload : Backend.client :=
  {| Backend.on_invoke := fun _ => inr [("StatusCode", Backend.FInt 200)] |}.

(** a compute service whose function returns its input *)
Definition echo : Backend.client :=
  {| Backend.on_invoke := fun args =>
       inr [("StatusCode", Backend.FInt 200);
            ("Payload",
             Backend.FBody {| Backend.on_read := inr (Backend.Payload args) |})] |}.

(** an event whose payload is a list, without subject and event type *)
Definition bare_event : FunctionApp.EventGridEvent :=
  {| FunctionApp.get_json := inr (VList [VInt 1]);
     FunctionApp.subject := None;
     FunctionApp.event_type := None |}.

End Examples.

(** ** The ways through the handler *)

Module Paths.
Import Backend.

Section Handler.
Variable json_ : json_module.
Variable c : client.

(** The five ways through [agent]. *)
Inductive path (request : Request) : result Response * calls -> Prop :=
| path_not_json e :
    get_json request = inl e ->
    path request (inl e, [])
| path_not_object v :
    get_json request = inr v ->
    is_dict v = false ->
    path request (inl (AttributeError v "get"), [])
| path_rejected kvs :
    get_json request = inr (VDict kvs) ->
    truthy (message_of kvs) = false ->
    path request (inr bad_request, [])
| path_failed kvs e :
    get_json request = inr (VDict kvs) ->
    truthy (message_of kvs) = true ->
    relay json_ c (message_of kvs) = inl e ->
    path request (inr (server_error e), [the_call json_ (message_of kvs)])
| path_relayed kvs v :
    get_json request = inr (VDict kvs) ->
    truthy (message_of kvs) = true ->
    relay json_ c (message_of kvs) = inr v ->
    path request (inr (jsonify v), [the_call json_ (message_of kvs)]).

End Handler.
End Paths.

(** * Properties *)

(** ** Truth values *)

Module Truth.

(** The values that fail [if message] without being text. *)
Lemma falsy_not_str (v : value) :
  truthy v = false /\ is_str v = false <->
  v = VNone \/ v = VBool false \/ v = VInt 0 \/ (exists s, v = VFloat (S754_zero s))
  \/ v = VList [] \/ v = VDict [].
Proof.
  split.
  - intros [Ht Hs]. destruct v as [ | b | z | f | s | xs | kvs ]; simpl in *.
    + auto.
    + subst b. auto.
    + apply negb_false_iff, Z.eqb_eq in Ht. subst z. auto.
    + destruct f; try discriminate. right; right; right; left. eauto.
    + discriminate.
    + destruct xs; [ | discriminate ]. auto 10.
    + destruct kvs; [ | discriminate ]. auto 10.
  - intros [H | [H | [H | [[s H] | [H | H]]]]]; subst v; split; reflexivity.
Qed.

(** A string is true exactly when it is not empty. *)
Lemma truthy_str (s : string) : truthy (VStr s) = true <-> s <> EmptyString.
Proof.
  simpl. rewrite negb_true_iff. split.
  - intros H ->. discriminate.
  - intros H. destruct s; [ contradiction | reflexivity ].
Qed.

Lemma truthy_int (z : Z) : truthy (VInt z) = true <-> z <> 0%Z.
Proof.
  simpl. rewrite negb_true_iff. apply Z.eqb_neq.
Qed.

End Truth.

(** ** The relay *)

Module Relay.
Import Backend.

Section Handler.
Variable json_ : json_module.
Variable c : client.

Lemma get_dict (kvs : list (string * value)) :
  get (VDict kvs) "message" (VStr EmptyString) = inr (message_of kvs).
Proof.
  unfold get, message_of. destruct (lookup "message" kvs); reflexivity.
Qed.

(** What the handler does with a body that is a JSON object. *)
Lemma handle_object (request : Request) (kvs : list (string * value)) :
  get_json request = inr (VDict kvs) ->
  handle json_ c request =
    if truthy (message_of kvs)
    then (inr (match relay json_ c (message_of kvs) with
               | inr v => jsonify v
               | inl e => server_error e
               end),
          [the_call json_ (message_of kvs)])
    else (inr bad_request, []).
Proof.
  intros Hbody. unfold handle, agent, bind, eval.
  rewrite Hbody. cbv beta iota. rewrite get_dict. cbv beta iota.
  destruct (truthy (message_of kvs)); simpl negb; cbv iota; [ | reflexivity ].
  unfold try_except, invoke, emit, ret, relay, decode.
  fold (the_call json_ (message_of kvs)).
  destruct (on_invoke c (the_call json_ (message_of kvs))) as [e | response];
    [ reflexivity | ].
  destruct (getitem response "Payload") as [e | payload]; [ reflexivity | ].
  destruct (read payload) as [e | text]; [ reflexivity | ].
  destruct (loads json_ text) as [e | v]; reflexivity.
Qed.

(** A body that is not JSON: the exception of [get_json] leaves the
    handler. *)
Lemma handle_not_json (request : Request) (e : exception) :
  get_json request = inl e ->
  handle json_ c request = (inl e, []).
Proof.
  intros Hbody. unfold handle, agent, bind, eval. rewrite Hbody. reflexivity.
Qed.

(** A body that is JSON but not an object: [data.get] raises, before the
    [try]. *)
Lemma handle_not_object (request : Request) (v : value) :
  get_json request = inr v ->
  is_dict v = false ->
  handle json_ c request = (inl (AttributeError v "get"), []).
Proof.
  intros Hbody Hv. unfold handle, agent, bind, eval. rewrite Hbody.
  destruct v; try discriminate; reflexivity.
Qed.

(** The handler, run on a list and on a body that is not JSON. *)
Example post_list_raises :
  handle json_ c (Examples.post (VList [VStr "hi"]))
  = (inl (Raise "AttributeError" "'list' object has no attribute 'get'"), []).
Proof. reflexivity. Qed.

Example post_garbage_raises :
  handle json_ c Examples.post_garbage = (inl Examples.BadRequest, []).
Proof. reflexivity. Qed.

Lemma fails_relay (m : value) (e : exception) :
  fails json_ c m e <-> relay json_ c m = inl e.
Proof.
  unfold relay, decode. split.
  - intros [H | r H1 H2 | r p H1 H2 H3 | r p t H1 H2 H3 H4];
      rewrite ?H, ?H1, ?H2, ?H3, ?H4; reflexivity.
  - destruct (on_invoke c (the_call json_ m)) as [e1 | r] eqn:H1.
    { intros [= ->]. now apply fails_invoke. }
    destruct (getitem r "Payload") as [e2 | p] eqn:H2.
    { intros [= ->]. now apply fails_getitem with r. }
    destruct (read p) as [e3 | t] eqn:H3.
    { intros [= ->]. now apply fails_read with r p. }
    intros H4. now apply fails_loads with r p t.
Qed.

End Handler.

(** C1: a POST whose JSON body has no [message] field, or has the empty
    string there, is answered with status 400 and the body
    [{"error": "No message provided"}], and the compute function is not
    invoked. *)
Theorem missing_or_empty_message_rejected
  (json_ : json_module) (c : client) (request : Request)
  (kvs : list (string * value)) :
  get_json request = inr (VDict kvs) ->
  lookup "message" kvs = None \/ lookup "message" kvs = Some (VStr EmptyString) ->
  handle json_ c request =
    (inr {| json := VDict [("error", VStr "No message provided")];
            status := 400;
            mimetype := "application/json" |},
     []).
Proof.
  intros Hbody Hmsg. rewrite (handle_object json_ c request kvs Hbody).
  unfold message_of. destruct Hmsg as [-> | ->]; reflexivity.
Qed.

Lemma missing_or_empty_message_rejected_witness :
  lookup "message" [("text", VStr "hi")] = None /\
  handle RefJson.json_ (Examples.answering Examples.reply_hello)
         (Examples.post (VDict [("text", VStr "hi")]))
  = (inr bad_request, []).
Proof.
  split; [ reflexivity | ].
  apply (missing_or_empty_message_rejected _ _ _ [("text", VStr "hi")]);
    [ reflexivity | left; reflexivity ].
Defined.

(** C2: a POST whose JSON body has a non-empty text in [message] leads to
    exactly one invocation of the compute function, and its payload is the
    text [json.dumps({'message': message})]. *)
Theorem valid_message_invokes_once
  (json_ : json_module) (c : client) (request : Request)
  (kvs : list (string * value)) (s : string) :
  get_json request = inr (VDict kvs) ->
  lookup "message" kvs = Some (VStr s) ->
  s <> EmptyString ->
  snd (handle json_ c request) =
    [ {| FunctionName := "agent_lambda";
         InvocationType := "RequestResponse";
         Payload := dumps json_ (VDict [("message", VStr s)]) |} ].
Proof.
  intros Hbody Hmsg Hs. rewrite (handle_object json_ c request kvs Hbody).
  unfold message_of. rewrite Hmsg.
  apply Truth.truthy_str in Hs. rewrite Hs. reflexivity.
Qed.

Lemma valid_message_invokes_once_witness :
  snd (handle RefJson.json_ Examples.unreachable
              (Examples.post (VDict [("message", VStr "hi")])))
  = [ {| FunctionName := "agent_lambda";
         InvocationType := "RequestResponse";
         Payload := Examples.message_hi |} ].
Proof.
  apply (valid_message_invokes_once RefJson.json_ Examples.unreachable _
           [("message", VStr "hi")] "hi");
    [ reflexivity | reflexivity | discriminate ].
Defined.

(** C3: when the compute function answers with a text that decodes to the
    value [v], the handler answers with status 200 and the body [v] itself:
    the decoded value is handed to [jsonify] as it is. *)
Theorem answer_passed_through
  (json_ : json_module) (c : client) (request : Request)
  (kvs : list (string * value)) (m : value)
  (response : invoke_response) (body : StreamingBody) (text : string)
  (v : value) :
  get_json request = inr (VDict kvs) ->
  lookup "message" kvs = Some m ->
  truthy m = true ->
  on_invoke c (the_call json_ m) = inr response ->
  lookup "Payload" response = Some (FBody body) ->
  on_read body = inr text ->
  loads json_ text = inr v ->
  fst (handle json_ c request) =
    inr {| json := v; status := 200; mimetype := "application/json" |}.
Proof.
  intros Hbody Hmsg Hm Hcall Hpayload Hread Hloads.
  rewrite (handle_object json_ c request kvs Hbody).
  unfold message_of. rewrite Hmsg, Hm.
  unfold relay, decode, getitem. rewrite Hcall, Hpayload. simpl read.
  rewrite Hread, Hloads. reflexivity.
Qed.

Lemma answer_passed_through_witness :
  loads RefJson.json_ Examples.reply_hello = inr (VDict [("reply", VStr "hello")]) /\
  fst (handle RefJson.json_ (Examples.answering Examples.reply_hello)
              (Examples.post (VDict [("message", VStr "hi")])))
  = inr (jsonify (VDict [("reply", VStr "hello")])).
Proof.
  split; [ reflexivity | ].
  apply (answer_passed_through RefJson.json_
           (Examples.answering Examples.reply_hello) _
           [("message", VStr "hi")] (VStr "hi")
           [("StatusCode", FInt 200); ("ExecutedVersion", FStr "$LATEST");
            ("Payload", FBody {| on_read := inr Examples.reply_hello |})]
           {| on_read := inr Examples.reply_hello |}
           Examples.reply_hello);
    reflexivity.
Defined.

(** C4: when the invocation of the compute function, or the reading or
    decoding of its answer, raises the exception [e], the handler answers
    with status 500 and the body [{"error": str(e)}], whichever step
    raised. *)
Theorem failure_answered_500
  (json_ : json_module) (c : client) (request : Request)
  (kvs : list (string * value)) (m : value) (e : exception) :
  get_json request = inr (VDict kvs) ->
  lookup "message" kvs = Some m ->
  truthy m = true ->
  fails json_ c m e ->
  fst (handle json_ c request) =
    inr {| json := VDict [("error", VStr (str e))];
           status := 500;
           mimetype := "application/json" |}.
Proof.
  intros Hbody Hmsg Hm Hfails.
  rewrite (handle_object json_ c request kvs Hbody).
  unfold message_of. rewrite Hmsg, Hm.
  apply fails_relay in Hfails. rewrite Hfails. reflexivity.
Qed.

Lemma failure_answered_500_witness :
  fst (handle RefJson.json_ Examples.unreachable
              (Examples.post (VDict [("message", VStr "hi")])))
  = inr {| json := VDict [("error", VStr "Could not connect to the endpoint URL")];
           status := 500;
           mimetype := "application/json" |}.
Proof.
  apply (failure_answered_500 RefJson.json_ Examples.unreachable _
           [("message", VStr "hi")] (VStr "hi") Examples.EndpointConnectionError);
    [ reflexivity | reflexivity | reflexivity | ].
  apply fails_invoke. reflexivity.
Defined.

(** C9: a POST whose JSON body has a false value that is not text in
    [message] (0, false, null, an empty list, an empty object) is answered
    with the same 400 response, and the compute function is not invoked. *)
Theorem falsy_message_rejected
  (json_ : json_module) (c : client) (request : Request)
  (kvs : list (string * value)) (m : value) :
  get_json request = inr (VDict kvs) ->
  lookup "message" kvs = Some m ->
  is_str m = false ->
  truthy m = false ->
  handle json_ c request =
    (inr {| json := VDict [("error", VStr "No message provided")];
            status := 400;
            mimetype := "application/json" |},
     []).
Proof.
  intros Hbody Hmsg _ Hm. rewrite (handle_object json_ c request kvs Hbody).
  unfold message_of. rewrite Hmsg, Hm. reflexivity.
Qed.

Lemma falsy_message_rejected_witness :
  handle RefJson.json_ (Examples.answering Examples.reply_hello)
         (Examples.post (VDict [("message", VInt 0)]))
  = (inr bad_request, []).
Proof.
  apply (falsy_message_rejected _ _ _ [("message", VInt 0)] (VInt 0));
    reflexivity.
Defined.

(** C10: a POST whose JSON body has a true value of any type in [message]
    passes the validation (the answer is not the 400 response), and the
    value is forwarded as it is in the payload
    [json.dumps({'message': message})] of the one invocation. *)
Theorem truthy_message_forwarded
  (json_ : json_module) (c : client) (request : Request)
  (kvs : list (string * value)) (m : value) :
  get_json request = inr (VDict kvs) ->
  lookup "message" kvs = Some m ->
  truthy m = true ->
  (exists r, fst (handle json_ c request) = inr r /\ status r <> 400%Z) /\
  snd (handle json_ c request) =
    [ {| FunctionName := "agent_lambda";
         InvocationType := "RequestResponse";
         Payload := dumps json_ (VDict [("message", m)]) |} ].
Proof.
  intros Hbody Hmsg Hm. rewrite (handle_object json_ c request kvs Hbody).
  unfold message_of. rewrite Hmsg, Hm. split; [ | reflexivity ].
  destruct (relay json_ c m) as [e | v]; eexists; (split; [ reflexivity | ]);
    simpl; lia.
Qed.

Lemma truthy_message_forwarded_witness :
  truthy (VList [VInt 1; VInt 2]) = true /\
  snd (handle RefJson.json_ (Examples.answering Examples.reply_hello)
              (Examples.post (VDict [("message", VList [VInt 1; VInt 2])])))
  = [ {| FunctionName := "agent_lambda";
         InvocationType := "RequestResponse";
         Payload := "{" ++ RefJson.q "message" ++ ": [1, 2]}" |} ].
Proof.
  split; [ reflexivity | ].
  apply (truthy_message_forwarded RefJson.json_
           (Examples.answering Examples.reply_hello) _
           [("message", VList [VInt 1; VInt 2])] (VList [VInt 1; VInt 2]));
    reflexivity.
Defined.

(** C7, as stated, fails: a body that is JSON but not an object, and a body
    that is not JSON, make the handler raise before its [try], so it
    answers nothing; and the relayed answer of the compute function need
    not be an object. *)
Lemma not_every_request_answers_json_object :
  ~ answers_json_object RefJson.json_ (Examples.answering Examples.reply_hello)
      (Examples.post (VList [VStr "hi"]))
  /\ ~ answers_json_object RefJson.json_ (Examples.answering Examples.reply_hello)
         Examples.post_garbage
  /\ ~ answers_json_object RefJson.json_ (Examples.answering "[1, 2]")
         (Examples.post (VDict [("message", VStr "hi")])).
Proof.
  repeat split; intros [r [Hr Hobj]]; vm_compute in Hr;
    try discriminate Hr.
  injection Hr as <-. discriminate Hobj.
Qed.

(** C7, amended: for a request whose body is a JSON object, the handler
    answers with a JSON body, which is either the value relayed from the
    compute function, with status 200, or an object with the one field
    [error], with status 400 or 500. *)
Theorem object_body_answers_json
  (json_ : json_module) (c : client) (request : Request)
  (kvs : list (string * value)) :
  get_json request = inr (VDict kvs) ->
  exists r,
    fst (handle json_ c request) = inr r /\
    mimetype r = "application/json" /\
    ((relay json_ c (message_of kvs) = inr (json r) /\ status r = 200%Z)
     \/ (exists text, json r = VDict [("error", VStr text)]
                      /\ (status r = 400%Z \/ status r = 500%Z))).
Proof.
  intros Hbody. rewrite (handle_object json_ c request kvs Hbody).
  destruct (truthy (message_of kvs)).
  - destruct (relay json_ c (message_of kvs)) as [e | v]; eexists;
      (split; [ reflexivity | split; [ reflexivity | ] ]).
    + right. exists (str e). auto.
    + left. auto.
  - eexists. split; [ reflexivity | split; [ reflexivity | ] ].
    right. eexists. simpl. auto.
Qed.

Lemma object_body_answers_json_witness :
  exists r,
    fst (handle RefJson.json_ (Examples.answering "[1, 2]")
                (Examples.post (VDict [("message", VStr "hi")]))) = inr r /\
    mimetype r = "application/json" /\
    ((relay RefJson.json_ (Examples.answering "[1, 2]")
            (message_of [("message", VStr "hi")]) = inr (json r)
      /\ status r = 200%Z)
     \/ (exists text, json r = VDict [("error", VStr text)]
                      /\ (status r = 400%Z \/ status r = 500%Z))).
Proof.
  apply (object_body_answers_json RefJson.json_ (Examples.answering "[1, 2]") _
           [("message", VStr "hi")]).
  reflexivity.
Defined.

End Relay.

(** ** The event logger *)

Module Logger.
Import FunctionApp.

(** C5: for an event whose payload, subject and event type are there, the
    handler writes exactly three records at level INFO, in this order: the
    serialized payload, the subject, the event type; then it returns,
    without a value. *)
Theorem three_records_in_order
  (json_ : json_module) (event : EventGridEvent)
  (data : value) (s t : string) :
  get_json event = inr data ->
  subject event = Some s ->
  event_type event = Some t ->
  deliver json_ event =
    (inr tt,
     [ {| levelname := "INFO"; msg := "Event received: " ++ dumps json_ data |};
       {| levelname := "INFO"; msg := "Subject: " ++ s |};
       {| levelname := "INFO"; msg := "Event Type: " ++ t |} ]).
Proof.
  intros Hdata Hs Ht.
  unfold deliver, main, bind, eval, logging_info, emit.
  rewrite Hdata, Hs, Ht. reflexivity.
Qed.

Lemma three_records_in_order_witness :
  deliver RefJson.json_ Examples.blob_created =
    (inr tt,
     [ {| levelname := "INFO";
          msg := "Event received: {" ++ RefJson.q "url" ++ ": "
                   ++ RefJson.q "https://x/y.txt" ++ "}" |};
       {| levelname := "INFO";
          msg := "Subject: /blobServices/default/containers/c/blobs/y.txt" |};
       {| levelname := "INFO";
          msg := "Event Type: Microsoft.Storage.BlobCreated" |} ]).
Proof.
  apply (three_records_in_order RefJson.json_ Examples.blob_created
           (VDict [("url", VStr "https://x/y.txt")])
           "/blobServices/default/containers/c/blobs/y.txt"
           "Microsoft.Storage.BlobCreated");
    reflexivity.
Defined.

(** C6: the handler catches nothing: when the extraction of the payload
    raises, that exception leaves the handler as it was raised, and
    nothing is written. *)
Theorem extraction_failure_propagates
  (json_ : json_module) (event : EventGridEvent) (e : exception) :
  get_json event = inl e ->
  deliver json_ event = (inl e, []).
Proof.
  intros Hdata. unfold deliver, main, bind, eval. rewrite Hdata. reflexivity.
Qed.

Lemma extraction_failure_propagates_witness :
  deliver RefJson.json_ Examples.broken_event
  = (inl (Raise "ValueError" "bad payload"), []).
Proof.
  apply (extraction_failure_propagates RefJson.json_ Examples.broken_event
           (Raise "ValueError" "bad payload")).
  reflexivity.
Defined.

End Logger.

(** ** Cross-origin requests *)

Module CrossOrigin.
Import Cors.

(** C8: whatever the [Origin] header of a cross-origin request to
    [/api/agent], the headers added to the response permit it: the policy
    set by [CORS(app)] allows every origin. *)
Theorem any_origin_permitted (origin : string) :
  origin_allowed CORS_app origin = true /\
  permits origin (cors_headers CORS_app "/api/agent" origin) = true.
Proof.
  split; [ reflexivity | ].
  unfold cors_headers, permits. simpl.
  rewrite String.eqb_refl. reflexivity.
Qed.

End CrossOrigin.

(** ** More on the relay *)

Module RelayMore.
Import Backend Paths.

Section Handler.
Variable json_ : json_module.
Variable c : client.

Lemma handle_path (request : Request) :
  path json_ c request (handle json_ c request).
Proof.
  destruct (get_json request) as [e | v] eqn:Hbody.
  - rewrite (Relay.handle_not_json json_ c request e Hbody).
    now apply path_not_json.
  - destruct (is_dict v) eqn:Hv.
    + destruct v; try discriminate.
      rewrite (Relay.handle_object json_ c request kvs Hbody).
      destruct (truthy (message_of kvs)) eqn:Hm.
      * destruct (relay json_ c (message_of kvs)) as [e | w] eqn:Hr.
        -- now apply path_failed.
        -- now apply path_relayed.
      * now apply path_rejected with kvs.
    + rewrite (Relay.handle_not_object json_ c request v Hbody Hv).
      now apply path_not_object.
Qed.

End Handler.

(** X1: an exception leaves the handler exactly when the body is not a JSON
    object: it is the exception of [get_json], or the [AttributeError] of
    [data.get] on a value that is not a [dict].  The compute function has
    not been invoked then: the catch-all of the handler does not cover the
    reading of the body. *)
Theorem raises_only_on_bad_body
  (json_ : json_module) (c : client) (request : Request) (e : exception) :
  (fst (handle json_ c request) = inl e <->
   get_json request = inl e
   \/ exists v, get_json request = inr v /\ is_dict v = false
                /\ e = AttributeError v "get")
  /\ (fst (handle json_ c request) = inl e -> snd (handle json_ c request) = []).
Proof.
  split; [ split | ].
  - intros H. destruct (handle_path json_ c request); simpl in H;
      try discriminate H; injection H as <-; eauto.
  - intros [H | [v [H [Hv ->]]]].
    + now rewrite (Relay.handle_not_json json_ c request e H).
    + now rewrite (Relay.handle_not_object json_ c request v H Hv).
  - intros H. destruct (handle_path json_ c request); simpl in H;
      try discriminate H; reflexivity.
Qed.

Lemma raises_only_on_bad_body_witness :
  fst (handle RefJson.json_ Examples.echo (Examples.post (VStr "hi")))
  = inl (Raise "AttributeError" "'str' object has no attribute 'get'").
Proof.
  apply (proj1 (raises_only_on_bad_body RefJson.json_ Examples.echo
                  (Examples.post (VStr "hi")) _)).
  right. exists (VStr "hi"). repeat split; reflexivity.
Defined.

(** X2: whatever the request and whatever the service does, the handler
    invokes at most once, and only the function [agent_lambda], waiting for
    its answer ([RequestResponse]): no retry, no second function. *)
Theorem at_most_one_call
  (json_ : json_module) (c : client) (request : Request) :
  (List.length (snd (handle json_ c request)) <= 1)%nat
  /\ forall call, In call (snd (handle json_ c request)) ->
       FunctionName call = "agent_lambda"
       /\ InvocationType call = "RequestResponse".
Proof.
  destruct (handle_path json_ c request); simpl; split; try lia;
    intros call Hin; try contradiction;
    destruct Hin as [<- | []]; split; reflexivity.
Qed.

(** X3: the status of the response tells whether the compute function was
    invoked: 400 means it was not, 200 and 500 mean it was, once; there is
    no other status. *)
Theorem status_tells_calls
  (json_ : json_module) (c : client) (request : Request) (r : Response) :
  fst (handle json_ c request) = inr r ->
  (status r = 400%Z /\ snd (handle json_ c request) = [])
  \/ ((status r = 200%Z \/ status r = 500%Z)
      /\ exists call, snd (handle json_ c request) = [call]).
Proof.
  intros H. destruct (handle_path json_ c request); simpl in *;
    try discriminate H; injection H as <-; simpl; eauto 6.
Qed.

Lemma status_tells_calls_witness :
  (status (server_error Examples.EndpointConnectionError) = 400%Z
   /\ snd (handle RefJson.json_ Examples.unreachable
                  (Examples.post (VDict [("message", VStr "hi")]))) = [])
  \/ ((status (server_error Examples.EndpointConnectionError) = 200%Z
       \/ status (server_error Examples.EndpointConnectionError) = 500%Z)
      /\ exists call,
           snd (handle RefJson.json_ Examples.unreachable
                       (Examples.post (VDict [("message", VStr "hi")]))) = [call]).
Proof.
  apply (status_tells_calls RefJson.json_ Examples.unreachable
           (Examples.post (VDict [("message", VStr "hi")]))).
  reflexivity.
Defined.

(** X4: of the body, only the field [message] counts: two bodies with the
    same [message] get the same response and lead to the same calls.  The
    other fields are neither checked nor forwarded. *)
Theorem only_message_matters
  (json_ : json_module) (c : client) (request1 request2 : Request)
  (kvs1 kvs2 : list (string * value)) :
  get_json request1 = inr (VDict kvs1) ->
  get_json request2 = inr (VDict kvs2) ->
  lookup "message" kvs1 = lookup "message" kvs2 ->
  handle json_ c request1 = handle json_ c request2.
Proof.
  intros H1 H2 Hmsg.
  rewrite (Relay.handle_object json_ c request1 kvs1 H1).
  rewrite (Relay.handle_object json_ c request2 kvs2 H2).
  unfold message_of. rewrite Hmsg. reflexivity.
Qed.

Lemma only_message_matters_witness :
  handle RefJson.json_ Examples.echo
         (Examples.post (VDict [("message", VStr "hi")]))
  = handle RefJson.json_ Examples.echo
           (Examples.post (VDict [("user", VStr "bob"); ("message", VStr "hi");
                                  ("debug", VBool true)])).
Proof.
  apply (only_message_matters RefJson.json_ Examples.echo _ _
           [("message", VStr "hi")]
           [("user", VStr "bob"); ("message", VStr "hi"); ("debug", VBool true)]);
    reflexivity.
Defined.

(** X5: of the answer of the service, only the entry [Payload] counts: two
    services that raise the same exceptions, and whose answers have the
    same payload, get the same response.  The status and the
    [FunctionError] reported by the service are not looked at. *)
Theorem only_payload_matters
  (json_ : json_module) (c1 c2 : client) (request : Request) :
  (forall args,
      match on_invoke c1 args, on_invoke c2 args with
      | inr answer1, inr answer2 =>
          lookup "Payload" answer1 = lookup "Payload" answer2
      | inl e1, inl e2 => e1 = e2
      | _, _ => False
      end) ->
  handle json_ c1 request = handle json_ c2 request.
Proof.
  intros Hsame.
  assert (forall m, relay json_ c1 m = relay json_ c2 m) as Hrelay.
  { intros m. unfold relay, decode, getitem. specialize (Hsame (the_call json_ m)).
    destruct (on_invoke c1 (the_call json_ m)) as [e1 | a1],
             (on_invoke c2 (the_call json_ m)) as [e2 | a2];
      try contradiction.
    - now subst.
    - now rewrite Hsame. }
  destruct (get_json request) as [e | v] eqn:Hbody.
  - now rewrite !(Relay.handle_not_json json_ _ request e Hbody).
  - destruct (is_dict v) eqn:Hv.
    + destruct v; try discriminate.
      rewrite !(Relay.handle_object json_ _ request kvs Hbody).
      now rewrite Hrelay.
    + now rewrite !(Relay.handle_not_object json_ _ request v Hbody Hv).
Qed.

Lemma only_payload_matters_witness :
  handle RefJson.json_ (Examples.answering Examples.reply_hello)
         (Examples.post (VDict [("message", VStr "hi")]))
  = handle RefJson.json_ (Examples.function_error Examples.reply_hello)
           (Examples.post (VDict [("message", VStr "hi")])).
Proof.
  apply (only_payload_matters RefJson.json_
           (Examples.answering Examples.reply_hello)
           (Examples.function_error Examples.reply_hello)).
  intros args. reflexivity.
Defined.

(** X6: when the answer of the service has no entry [Payload], the lookup
    raises [KeyError] inside the [try]: the response is 500 with the body
    [{"error": "'Payload'"}], after the one invocation. *)
Theorem missing_payload_answered_500
  (json_ : json_module) (c : client) (request : Request)
  (kvs : list (string * value)) (answer : invoke_response) :
  get_json request = inr (VDict kvs) ->
  truthy (message_of kvs) = true ->
  on_invoke c (the_call json_ (message_of kvs)) = inr answer ->
  lookup "Payload" answer = None ->
  handle json_ c request =
    (inr {| json := VDict [("error", VStr "'Payload'")];
            status := 500;
            mimetype := "application/json" |},
     [ {| FunctionName := "agent_lambda";
          InvocationType := "RequestResponse";
          Payload := dumps json_ (VDict [("message", message_of kvs)]) |} ]).
Proof.
  intros Hbody Hm Hcall Hnone.
  rewrite (Relay.handle_object json_ c request kvs Hbody), Hm.
  unfold relay, decode, getitem. rewrite Hcall, Hnone. reflexivity.
Qed.

Lemma missing_payload_answered_500_witness :
  handle RefJson.json_ Examples.no_payload
         (Examples.post (VDict [("message", VStr "hi")]))
  = (inr {| json := VDict [("error", VStr "'Payload'")];
            status := 500;
            mimetype := "application/json" |},
     [ {| FunctionName := "agent_lambda";
          InvocationType := "RequestResponse";
          Payload := Examples.message_hi |} ]).
Proof.
  apply (missing_payload_answered_500 RefJson.json_ Examples.no_payload _
           [("message", VStr "hi")] [("StatusCode", FInt 200)]);
    reflexivity.
Defined.

(** X7: encoding and decoding compose: when the function returns its input
    and [json.loads] reads back what [json.dumps] wrote for this payload,
    the response is 200 with the body [{"message": message}], the message
    of the request as it came. *)
Theorem echo_returns_message
  (json_ : json_module) (c : client) (request : Request)
  (kvs : list (string * value)) (answer : invoke_response)
  (body : StreamingBody) :
  get_json request = inr (VDict kvs) ->
  truthy (message_of kvs) = true ->
  on_invoke c (the_call json_ (message_of kvs)) = inr answer ->
  lookup "Payload" answer = Some (FBody body) ->
  on_read body = inr (Payload (the_call json_ (message_of kvs))) ->
  loads json_ (dumps json_ (VDict [("message", message_of kvs)]))
    = inr (VDict [("message", message_of kvs)]) ->
  fst (handle json_ c request) =
    inr {| json := VDict [("message", message_of kvs)];
           status := 200;
           mimetype := "application/json" |}.
Proof.
  intros Hbody Hm Hcall Hpayload Hread Hloads.
  rewrite (Relay.handle_object json_ c request kvs Hbody), Hm.
  unfold relay, decode, getitem. rewrite Hcall, Hpayload. simpl read.
  rewrite Hread. simpl Payload. rewrite Hloads. reflexivity.
Qed.

Lemma echo_returns_message_witness :
  fst (handle RefJson.json_ Examples.echo
              (Examples.post (VDict [("message", VList [VStr "a"; VInt 2]);
                                     ("user", VStr "bob")])))
  = inr (jsonify (VDict [("message", VList [VStr "a"; VInt 2])])).
Proof.
  apply (echo_returns_message RefJson.json_ Examples.echo _
           [("message", VList [VStr "a"; VInt 2]); ("user", VStr "bob")]
           [("StatusCode", FInt 200);
            ("Payload",
             FBody {| on_read :=
                        inr (Payload (the_call RefJson.json_
                                        (VList [VStr "a"; VInt 2]))) |})]
           {| on_read :=
                inr (Payload (the_call RefJson.json_ (VList [VStr "a"; VInt 2]))) |});
    reflexivity.
Defined.

End RelayMore.

(** ** More on the event logger *)

Module LoggerMore.
Import FunctionApp.

(** X8: the handler does not look into the event: whatever the type of the
    payload, and with or without subject and event type ([None] is
    written as [None]), it writes its three records and returns. *)
Theorem any_payload_logged
  (json_ : json_module) (event : EventGridEvent) (data : value) :
  get_json event = inr data ->
  deliver json_ event =
    (inr tt,
     [ {| levelname := "INFO"; msg := "Event received: " ++ dumps json_ data |};
       {| levelname := "INFO"; msg := "Subject: " ++ fmt (subject event) |};
       {| levelname := "INFO"; msg := "Event Type: " ++ fmt (event_type event) |} ]).
Proof.
  intros Hdata. unfold deliver, main, bind, eval, logging_info, emit.
  rewrite Hdata. reflexivity.
Qed.

Lemma any_payload_logged_witness :
  deliver RefJson.json_ Examples.bare_event =
    (inr tt,
     [ {| levelname := "INFO"; msg := "Event received: [1]" |};
       {| levelname := "INFO"; msg := "Subject: None" |};
       {| levelname := "INFO"; msg := "Event Type: None" |} ]).
Proof.
  apply (any_payload_logged RefJson.json_ Examples.bare_event (VList [VInt 1])).
  reflexivity.
Defined.

(** X9: a delivery writes all three records or none: none when the
    extraction of the payload raises, three when it does not; every record
    is at level INFO, and the handler returns exactly when it has written. *)
Theorem all_or_nothing
  (json_ : json_module) (event : EventGridEvent) :
  (exists e, get_json event = inl e
             /\ deliver json_ event = (inl e, []))
  \/ (fst (deliver json_ event) = inr tt
      /\ List.length (snd (deliver json_ event)) = 3%nat
      /\ Forall (fun r => levelname r = "INFO") (snd (deliver json_ event))).
Proof.
  unfold deliver, main, bind, eval, logging_info, emit.
  destruct (get_json event) as [e | data].
  - left. exists e. split; reflexivity.
  - right. simpl. repeat split. repeat constructor.
Qed.

End LoggerMore.
